(** * Feed, likes and notifications of Connect-Health, embedded in Rocq

    Shallow embedding of the feed loading code ([FeedScreen.loadFeed],
    [PaginatedFlatList.fetchMoreData], the [postsSlice] reducers and
    thunks), of the like toggling ([toggleLike], [PostCard.handleLikeToggle])
    and of the two notifications slices. Firestore, AsyncStorage and the
    clock are the environment: their answers are inputs of the functions. *)

From Stdlib Require Import List String Ascii ZArith Bool Lia.
Import ListNotations.


(* ------------------------------------------------------------------ *)
(** ** Data model *)

(** A post document as the feed holds it: [{ id: doc.id, ...doc.data() }].
    [timestamp] is the Firestore timestamp converted to milliseconds. *)
Record Post := mkPost {
  id : string;
  userId : string;
  timestamp : nat;
  likes : list string;
  likeCount : Z;
  commentCount : Z
}.

(** [xs.includes(x)] on an array of strings. *)
Definition includes (xs : list string) (x : string) : bool :=
  existsb (String.eqb x) xs.

(** Number of entries of a post list carrying id [i]. *)
Definition count_id (i : string) (ps : list Post) : nat :=
  List.length (filter (fun p => String.eqb (id p) i) ps).






(* ------------------------------------------------------------------ *)
(** ** postsSlice (src/redux/slices/postsSlice.js) *)

Module PostsSlice.

Record State := mkState {
  feed : list Post;
  lastDoc : option Post;
  hasMore : bool;
  refreshing : bool;
  failed : bool                  (* status === 'failed' *)
}.

Definition initialState : State := mkState [] None true false false.

(** Payload of [fetchFeedPosts.fulfilled]. *)
Record FeedPage := mkFeedPage {
  page_posts : list Post;
  page_lastDoc : option Post;
  page_hasMore : bool
}.



(** [addComment.fulfilled], restricted to the feed. *)
Definition updateCommentCount (postId : string) (p : Post) : Post :=
  if String.eqb (id p) postId then
    mkPost (id p) (userId p) (timestamp p) (likes p) (likeCount p)
           (commentCount p + 1)%Z
  else p.

Definition addComment_fulfilled (st : State) (postId : string) : State :=
  mkState (map (updateCommentCount postId) (feed st))
          (lastDoc st) (hasMore st) (refreshing st) false.




End PostsSlice.

(* ------------------------------------------------------------------ *)
(** ** PaginatedFlatList (src/components/PaginatedFlatList.js) *)

Module PaginatedFlatList.

Record State := mkState {
  data : list Post;
  loading : bool;
  lastDoc : option Post;
  hasMore : bool
}.

(** Remote calls the component issues. *)
Inductive Call := QueryAfter (cursor : option Post) (limit : nat).

(** Synchronous part of [fetchMoreData], up to [await query.get()]. *)
Definition fetchMoreData_begin (limit : nat) (st : State) : State * list Call :=
  if negb (hasMore st) || loading st then (st, [])
  else (mkState (data st) true (lastDoc st) (hasMore st),
        [QueryAfter (lastDoc st) limit]).

(** Rest of [fetchMoreData] once the query answered [docs]. *)
Definition fetchMoreData_end (limit : nat) (st : State) (docs : list Post)
  : State :=
  mkState (data st ++ docs) false (last (map Some docs) None)
          (Nat.eqb (List.length docs) limit).

End PaginatedFlatList.

(* ------------------------------------------------------------------ *)
(** ** FeedScreen (src/screens/FeedScreen.js) *)

Module FeedScreen.

Definition POSTS_PER_PAGE : nat := 10.
Definition CACHE_EXPIRY_MS : Z := 24 * 60 * 60 * 1000.

(** Component state ([useState] hooks and the [isMounted] ref). *)
Record State := mkState {
  posts : list Post;
  loading : bool;
  refreshing : bool;
  loadingMore : bool;
  lastVisible : option Post;
  hasMorePosts : bool;
  isFirstLoad : bool;
  offlineMode : bool;
  mounted : bool;
  alerts : nat                   (* number of [Alert.alert] shown *)
}.

(** What the hooks report: [useUser], [useNetInfo] and [Date.now()]. *)
Record Env := mkEnv {
  user : bool;
  isConnected : bool;
  internetReachable : bool;
  blockedUsers : list string;
  now : Z
}.

(** AsyncStorage keys ['cachedFeedPosts'] and ['cachedFeedTimestamp']. *)
Record Cache := mkCache {
  cachedPosts : option (list Post);
  cachedTimestamp : option Z
}.

(** What Firestore answers: the [connections] query and the [posts]
    query both succeed, or one of them throws. *)
Inductive Remote :=
| RFail
| ROk (connectedUserIds : list string) (docs : list Post).

(** Calls issued before the first [await] returns. *)
Inductive Call := CCacheRead | CConnections.

Definition set_posts (ps : list Post) (s : State) : State :=
  mkState ps (loading s) (refreshing s) (loadingMore s) (lastVisible s)
          (hasMorePosts s) (isFirstLoad s) (offlineMode s) (mounted s)
          (alerts s).

Definition set_offline (b : bool) (s : State) : State :=
  mkState (posts s) (loading s) (refreshing s) (loadingMore s) (lastVisible s)
          (hasMorePosts s) (isFirstLoad s) b (mounted s) (alerts s).

Definition set_page (lv : option Post) (hm : bool) (s : State) : State :=
  mkState (posts s) (loading s) (refreshing s) (loadingMore s) lv hm
          (isFirstLoad s) (offlineMode s) (mounted s) (alerts s).

Definition add_alert (s : State) : State :=
  mkState (posts s) (loading s) (refreshing s) (loadingMore s) (lastVisible s)
          (hasMorePosts s) (isFirstLoad s) (offlineMode s) (mounted s)
          (S (alerts s)).

(** The [finally] block: every loading flag off, [isFirstLoad] off. *)
Definition finally_ (s : State) : State :=
  if mounted s then
    mkState (posts s) false false false (lastVisible s) (hasMorePosts s)
            false (offlineMode s) (mounted s) (alerts s)
  else s.

(** Loading indicators set before the [try]. *)
Definition loadFeed_flags (reset silent : bool) (s : State) : State :=
  if mounted s && negb silent then
    if reset then
      if isFirstLoad s then
        mkState (posts s) true (refreshing s) (loadingMore s) (lastVisible s)
                (hasMorePosts s) (isFirstLoad s) (offlineMode s) (mounted s)
                (alerts s)
      else
        mkState (posts s) (loading s) true (loadingMore s) (lastVisible s)
                (hasMorePosts s) (isFirstLoad s) (offlineMode s) (mounted s)
                (alerts s)
    else
      mkState (posts s) (loading s) (refreshing s) true (lastVisible s)
              (hasMorePosts s) (isFirstLoad s) (offlineMode s) (mounted s)
              (alerts s)
  else s.

(** The two guard lines at the top of [loadFeed]:
    [if (!user || (!isConnected && !silent) || (!isConnected && silent)) return;]
    [if (!user || (!isConnected && !silent)) return;] *)
Definition loadFeed_returns_early (env : Env) (silent : bool) : bool :=
  negb (user env) || (negb (isConnected env) && negb silent)
  || (negb (isConnected env) && silent)
  || (negb (user env) || (negb (isConnected env) && negb silent)).

(** [loadCachedPosts]: [Some ps] when it calls [setPosts(ps)] and returns
    [true]. *)
Definition loadCachedPosts (env : Env) (c : Cache) (isMounted : bool)
  : option (list Post) :=
  match cachedPosts c, cachedTimestamp c with
  | Some ps, Some ts =>
      if (now env - ts <? CACHE_EXPIRY_MS)%Z then
        match ps with
        | [] => None
        | _ :: _ => if isMounted then Some ps else None
        end
      else None
  | _, _ => None
  end.

(** [Array.from(new Set(allPosts.map(p => p.id))).map(id => allPosts.find(p => p.id === id))]:
    the first entry of every id, in order of first occurrence. *)
Fixpoint uniqueById_from (seen : list string) (ps : list Post) : list Post :=
  match ps with
  | [] => []
  | p :: rest =>
      if includes seen (id p) then uniqueById_from seen rest
      else p :: uniqueById_from (id p :: seen) rest
  end.

Definition uniqueById (ps : list Post) : list Post := uniqueById_from [] ps.

(** The three [setPosts] calls of the success branch, applied in order
    (React applies queued updates in order, batched or not). *)
Definition updatePosts (reset : bool) (prev fetched : list Post) : list Post :=
  let s1 := if reset then fetched else prev ++ fetched in
  let s2 := uniqueById (s1 ++ fetched) in
  s2 ++ fetched.

(** The ['userId' in ...] filter of the posts query: blocked and null ids
    removed, the viewer appended, the first ten kept. *)
Definition postsQuery_in (env : Env) (viewer : string)
  (connectedUserIds : list string) : list string :=
  let ids := filter (fun i => negb (includes (blockedUsers env) i))
                    connectedUserIds ++ [viewer] in
  firstn (Nat.min (List.length ids) 10) ids.

(** [loadFeed] up to its first [await]: the state then and the calls
    issued. A run that reaches no [await] has issued no call. *)
Definition loadFeed_begin (env : Env) (s : State) (reset silent : bool)
  : State * list Call :=
  if loadFeed_returns_early env silent then (s, []) else
  let s1 := loadFeed_flags reset silent s in
  if negb (isConnected env) && reset then (s1, [CCacheRead])
  else if isConnected env && internetReachable env then (s1, [CConnections])
  else (finally_ (set_offline true s1), []).

(** A whole run of [loadFeed] against the cache [c] and the remote
    answer [r]. *)
Definition loadFeed (env : Env) (c : Cache) (r : Remote) (s : State)
  (reset silent : bool) : State :=
  if loadFeed_returns_early env silent then s else
  let s1 := loadFeed_flags reset silent s in
  let fromCache :=
    if negb (isConnected env) && reset then loadCachedPosts env c (mounted s1)
    else None in
  match fromCache with
  | Some ps => finally_ (finally_ (set_offline true (set_posts ps s1)))
  | None =>
      if isConnected env && internetReachable env then
        match r with
        | RFail =>
            finally_ (if mounted s1 && negb silent then add_alert s1 else s1)
        | ROk _ docs =>
            let s2 := if mounted s1
                      then set_posts (updatePosts reset (posts s1) docs) s1
                      else s1 in
            finally_ (set_offline false
              (set_page (last (map Some docs) None)
                        (Nat.eqb (List.length docs) POSTS_PER_PAGE) s2))
        end
      else finally_ (set_offline true s1)
  end.

(** [loadMorePosts]: starts [loadFeed(false)] behind its guard. *)
Definition loadMorePosts (env : Env) (s : State) : State * list Call :=
  if mounted s && negb (loadingMore s) && hasMorePosts s && negb (offlineMode s)
  then loadFeed_begin env s false false
  else (s, []).

End FeedScreen.

(* ------------------------------------------------------------------ *)
(** ** postsSlice thunks: [fetchFeedPosts] and [toggleLike] *)

Module PostsThunks.
Import PostsSlice.

(** A Firestore query on [posts], [orderBy('timestamp', 'desc')]:
    the optional ['userId' in ...] filter, the limit and the cursor. *)
Record FeedQuery := mkFeedQuery {
  q_in : option (list string);
  q_limit : nat;
  q_after : option Post
}.

(** [allUserIds]: connections minus blocked users, plus the viewer. *)
Definition allUserIds (uid : string) (blockedUsers : list string)
  (connectedUserIds : list string) : list string :=
  filter (fun i => negb (includes blockedUsers i)) connectedUserIds ++ [uid].

(** The posts query [fetchFeedPosts] builds. *)
Definition fetchFeedPosts_query (uid : string) (blockedUsers : list string)
  (limit : nat) (lastDoc : option Post) (connectedUserIds : list string)
  : FeedQuery :=
  let ids := allUserIds uid blockedUsers connectedUserIds in
  if (List.length ids <=? 10)%nat then
    mkFeedQuery (Some (match ids with [] => [uid] | _ => ids end)) limit lastDoc
  else mkFeedQuery None (limit * 3) lastDoc.

(** [fetchFeedPosts] with Firestore answering [answer q] to query [q];
    returns the query issued and the fulfilled payload. *)
Definition fetchFeedPosts (uid : string) (blockedUsers : list string)
  (limit : nat) (lastDoc : option Post) (connectedUserIds : list string)
  (answer : FeedQuery -> list Post) : FeedQuery * FeedPage :=
  let ids := allUserIds uid blockedUsers connectedUserIds in
  let q := fetchFeedPosts_query uid blockedUsers limit lastDoc connectedUserIds in
  let docs := answer q in
  let ps :=
    if (List.length ids <=? 10)%nat then docs
    else firstn limit (filter (fun d => includes ids (userId d)) docs) in
  (q, mkFeedPage ps (last (map Some docs) None)
                 (Nat.eqb (List.length ps) limit)).

(** The Firestore side: the [posts] collection and the number of
    notification documents added. *)
Record RemoteStore := mkRemote {
  rposts : list Post;
  rnotifications : nat
}.

Definition find_post (postId : string) (ps : list Post) : option Post :=
  find (fun p => String.eqb (id p) postId) ps.

Definition replace_post (q : Post) (ps : list Post) : list Post :=
  map (fun p => if String.eqb (id p) (id q) then q else p) ps.

(** [FieldValue.arrayUnion] and [FieldValue.arrayRemove]. *)
Definition arrayUnion (xs : list string) (x : string) : list string :=
  if includes xs x then xs else xs ++ [x].
Definition arrayRemove (xs : list string) (x : string) : list string :=
  filter (fun y => negb (String.eqb y x)) xs.

Definition with_likes (p : Post) (l : list string) (c : Z) : Post :=
  mkPost (id p) (userId p) (timestamp p) l c (commentCount p).




(** The two remote steps of [toggleLike] taken apart, for calls that
    interleave: [postRef.get()] reads the post, then, after an [await],
    [postRef.update(...)] sends [arrayRemove]/[arrayUnion] of the user and
    [increment(-1)]/[increment(1)], which the server applies to the
    document as it is when the update arrives. The update of a missing
    document throws ([None]). *)
Definition toggleLike_get (postId : string) (r : RemoteStore) : option Post :=
  find_post postId (rposts r).

Definition toggleLike_update (postId uid : string) (isLiked : bool) (r : RemoteStore)
  : option RemoteStore :=
  match find_post postId (rposts r) with
  | None => None
  | Some cur =>
      Some (mkRemote
              (replace_post
                 (if isLiked
                  then with_likes cur (arrayRemove (likes cur) uid) (likeCount cur - 1)
                  else with_likes cur (arrayUnion (likes cur) uid) (likeCount cur + 1))
                 (rposts r))
              (rnotifications r))
  end.

End PostsThunks.

(* ------------------------------------------------------------------ *)
(** ** PostCard.handleLikeToggle (src/components/PostCard.js) *)

Module PostCard.

Record Card := mkCard {
  isLiked : bool;
  likeCount : Z;
  alerts : nat
}.

(** One run of the transaction callback on the snapshot it reads
    ([None]: the post does not exist, the callback throws). The setters
    [setIsLiked] and [setLikeCount] run inside the callback. *)
Definition callback (uid : string) (snap : option (list string)) (c : Card)
  : option Card :=
  match snap with
  | None => None
  | Some ls =>
      if includes ls uid then Some (mkCard false (likeCount c - 1) (alerts c))
      else Some (mkCard true (likeCount c + 1) (alerts c))
  end.

(** Firestore runs the callback once per attempt (it retries on
    contention); [runs] lists the snapshots read by the attempts. The
    result is the card and whether the callback threw. *)
Fixpoint run_attempts (uid : string) (runs : list (option (list string)))
  (c : Card) : Card * bool :=
  match runs with
  | [] => (c, false)
  | s :: rest =>
      match callback uid s c with
      | None => (c, true)
      | Some c' => run_attempts uid rest c'
      end
  end.

(** [handleLikeToggle] for a logged-in user; [committed] is whether the
    transaction finally commits. The [catch] shows an alert. *)
Definition handleLikeToggle (uid : string) (runs : list (option (list string)))
  (committed : bool) (c : Card) : Card :=
  let '(c', threw) := run_attempts uid runs c in
  if threw || negb committed then mkCard (isLiked c') (likeCount c') (S (alerts c'))
  else c'.

End PostCard.

(* ------------------------------------------------------------------ *)
(** ** Array-based notifications slice
       (src/redux/slices/notificationsSlice.js) *)

Module NotificationsArray.

(** A notification as the slice reads it: its [id] and [read] flag. *)
Record Notif := mkNotif { n_id : string; read : bool }.

Record State := mkState {
  notifications : list Notif;
  unreadCount : nat
}.

Definition initialState : State := mkState [] 0.

Inductive Action :=
| addNotification (n : Notif)
| resetNotifications
| fetchNotifications_fulfilled (payload : list Notif)
| markAsRead_fulfilled (notificationIds : list string).

Definition unread (ns : list Notif) : list Notif :=
  filter (fun n => negb (read n)) ns.

Definition reducer (st : State) (a : Action) : State :=
  match a with
  | addNotification n =>
      (* [state.notifications.unshift(n)], then the count recomputed *)
      let ns := n :: notifications st in
      mkState ns (List.length (unread ns))
  | resetNotifications => mkState [] 0
  | fetchNotifications_fulfilled payload =>
      let newNotifications :=
        filter (fun n => negb (existsb (fun m => String.eqb (n_id m) (n_id n))
                                       (notifications st))) payload in
      mkState (notifications st ++ newNotifications)
              (unreadCount st + List.length (unread newNotifications))
  | markAsRead_fulfilled ids =>
      let ns := map (fun n => if includes ids (n_id n)
                              then mkNotif (n_id n) true else n)
                    (notifications st) in
      mkState ns (List.length (unread ns))
  end.

Definition run (st : State) (acts : list Action) : State :=
  fold_left reducer acts st.

Fixpoint nids_unique (ns : list Notif) : bool :=
  match ns with
  | [] => true
  | n :: rest => negb (existsb (fun m => String.eqb (n_id m) (n_id n)) rest)
                 && nids_unique rest
  end.

End NotificationsArray.

(* ------------------------------------------------------------------ *)
(** ** Map-based notifications slice (src/redux/slices/notificationsSlice.js,
       second version) *)

Module NotificationsMap.

Record Notif := mkNotif { n_id : string; read : bool }.

(** The JS value held in [state.notifications]: a plain object (the
    initial [{}]) or a [Map] (after [resetNotifications]). Both are kept
    as key/value lists in insertion order. *)
Inductive Store :=
| NObject (entries : list (string * Notif))
| NMap (entries : list (string * Notif)).

Record State := mkState {
  notifications : Store;
  unreadCount : nat
}.

Definition initialState : State := mkState (NObject []) 0.

(** A reducer either returns the next state or throws a [TypeError]. *)
Inductive Result := Ok (st : State) | TypeError (message : string).

(** [Map.prototype.set]: an existing key keeps its position. *)
Definition map_set (k : string) (v : Notif) (m : list (string * Notif))
  : list (string * Notif) :=
  if existsb (fun e => String.eqb (fst e) k) m
  then map (fun e => if String.eqb (fst e) k then (k, v) else e) m
  else m ++ [(k, v)].

(** [state.notifications.set(k, v)]: a plain object has no [set]. *)
Definition store_set (k : string) (v : Notif) (s : Store) : option Store :=
  match s with
  | NMap m => Some (NMap (map_set k v m))
  | NObject _ => None
  end.

(** [Object.values(state.notifications)]: a [Map] has no own
    enumerable properties. *)
Definition object_values (s : Store) : list Notif :=
  match s with
  | NObject es => map snd es
  | NMap _ => []
  end.

Definition not_a_function : string := "state.notifications.set is not a function".

Definition addNotification (st : State) (n : Notif) : Result :=
  match store_set (n_id n) n (notifications st) with
  | Some s => Ok (mkState s (S (unreadCount st)))
  | None => TypeError not_a_function
  end.

Definition resetNotifications (st : State) : Result :=
  Ok (mkState (NMap []) 0).

Fixpoint set_all (ns : list Notif) (s : Store) : option Store :=
  match ns with
  | [] => Some s
  | n :: rest =>
      match store_set (n_id n) n s with
      | Some s' => set_all rest s'
      | None => None
      end
  end.

Definition fetchNotifications_fulfilled (st : State) (payload : list Notif)
  : Result :=
  match set_all payload (notifications st) with
  | Some s =>
      Ok (mkState s (List.length (filter (fun n => negb (read n))
                                         (object_values s))))
  | None => TypeError not_a_function
  end.

End NotificationsMap.

(* ------------------------------------------------------------------ *)
(** ** Sample inputs *)

Module Samples.

(** A post with no likes and no comments. *)
Definition post (i u : string) (t : nat) : Post := mkPost i u t [] 0 0.

(** The scenario of the spec: viewer follows A and B; page one is
    [post1(A, t=5); post2(B, t=3)], page two repeats [post2]. *)
Definition post1 : Post := post "post1" "A" 5.
Definition post2 : Post := post "post2" "B" 3.
Definition post3 : Post := post "post3" "A" 1.

(** User ids ["u00"] .. for the fan-out scenario. *)
Definition digit (n : nat) : ascii := ascii_of_nat (48 + n).
Definition uname (n : nat) : string :=
  String "u" (String (digit (n / 10)) (String (digit (n mod 10)) EmptyString)).
Definition followed25 : list string := map uname (seq 0 25).

(** Thirty recent posts, all by someone the viewer does not follow. *)
Definition strangerPosts : list Post :=
  map (fun n => post (uname (50 + n)) "stranger" (100 - n)) (seq 0 30).

(** Thirty recent posts, all by followed users. *)
Definition followedPosts : list Post :=
  map (fun n => post (uname (50 + n)) (uname n) (100 - n)) (seq 0 30).

Definition onlineEnv : FeedScreen.Env :=
  FeedScreen.mkEnv true true true [] 1000.
Definition offlineEnv : FeedScreen.Env :=
  FeedScreen.mkEnv true false false [] 1000.

(** A first render of the screen. *)
Definition screen0 : FeedScreen.State :=
  FeedScreen.mkState [] true false false None true true false true 0.

(** A cache written 500 ms ago. *)
Definition freshCache : FeedScreen.Cache :=
  FeedScreen.mkCache (Some [post1; post2]) (Some 500%Z).

End Samples.

(* ------------------------------------------------------------------ *)
(** ** postsSlice: the other reducers and [fetchComments] *)

Module PostsSliceExt.

(** A comment as the slice reads it. *)
Record Comment := mkComment {
  cm_id : string;
  cm_postId : string;
  cm_userId : string
}.

(** The slice state beyond [PostsSlice.State]: [userPosts] and [comments]
    are objects keyed by user id and post id, kept as key/value lists. *)
Record State := mkState {
  base : PostsSlice.State;
  userPosts : list (string * list Post);
  currentPost : option Post;
  comments : list (string * list Comment)
}.

(** [obj[k]] and [delete obj[k]] on an object kept as a key/value list. *)
Definition obj_get {V : Type} (k : string) (o : list (string * V)) : option V :=
  option_map snd (find (fun e => String.eqb (fst e) k) o).
Definition obj_set {V : Type} (k : string) (v : V) (o : list (string * V))
  : list (string * V) :=
  if existsb (fun e => String.eqb (fst e) k) o
  then map (fun e => if String.eqb (fst e) k then (k, v) else e) o
  else o ++ [(k, v)].





(** [addComment.fulfilled] *)
Definition addComment_fulfilled (st : State) (c : Comment) : State :=
  let postId := cm_postId c in
  let upd := PostsSlice.updateCommentCount postId in
  let b := base st in
  let cs := match obj_get postId (comments st) with Some l => l | None => [] end in
  mkState (PostsSlice.mkState (map upd (PostsSlice.feed b)) (PostsSlice.lastDoc b)
             (PostsSlice.hasMore b) (PostsSlice.refreshing b) false)
          (map (fun e => (fst e, map upd (snd e))) (userPosts st))
          (match currentPost st with
           | Some p => if String.eqb (id p) postId then Some (upd p) else Some p
           | None => None
           end)
          (obj_set postId (cs ++ [c]) (comments st)).


(** The [fetchComments] thunk once the query answered [docs]: comments by
    blocked users dropped, [hasMore] from the kept count. *)
Definition fetchComments (blockedUsers : list string) (limit : nat)
  (docs : list Comment) : list Comment * bool :=
  let cs := filter (fun c => negb (includes blockedUsers (cm_userId c))) docs in
  (cs, Nat.eqb (List.length cs) limit).

End PostsSliceExt.

(* ------------------------------------------------------------------ *)
(** ** Array-based notifications slice: the [markAllAsRead] thunk *)

Module NotificationsArrayThunks.
Import NotificationsArray.

Definition BATCH_SIZE : nat := 50.

(** [unreadIds]: ids of the unread notifications, in list order. *)
Definition unreadIds (ns : list Notif) : list string :=
  map n_id (filter (fun n => negb (read n)) ns).

(** [for (let i = 0; i < unreadIds.length; i += BATCH_SIZE)
       batches.push(markAsRead(unreadIds.slice(i, i + BATCH_SIZE)))];
    [fuel] bounds the iterations. *)
Fixpoint batches_loop (fuel i : nat) (ids : list string) : list (list string) :=
  match fuel with
  | 0 => []
  | S f => if (i <? List.length ids)%nat
           then firstn BATCH_SIZE (skipn i ids) :: batches_loop f (i + BATCH_SIZE) ids
           else []
  end.

(** The id lists passed to [NotificationService.markAsRead]: none when
    nothing is unread (early return). *)
Definition markAllAsRead_batches (ns : list Notif) : list (list string) :=
  match unreadIds ns with
  | [] => []
  | ids => batches_loop (List.length ids) 0 ids
  end.

End NotificationsArrayThunks.

(* ------------------------------------------------------------------ *)
(** ** FeedScreen: [onRefresh] and the connectivity effect *)

Module FeedScreenExt.
Import FeedScreen.


(** [handleConnectivityChange] of the effect on
    [isConnected], [internetReachable], [offlineMode] and [posts.length]. *)
Definition handleConnectivityChange (env : Env) (c : Cache) (r : Remote) (s : State)
  : State :=
  if isConnected env && internetReachable env && offlineMode s then
    loadFeed env c r (set_offline false s) true false
  else if (negb (isConnected env) || negb (internetReachable env))
          && (0 <? List.length (posts s))%nat then set_offline true s
  else s.

End FeedScreenExt.

(* ------------------------------------------------------------------ *)
(** ** PaginatedFlatList: initial load and pull-to-refresh *)

Module PaginatedFlatListExt.
Import PaginatedFlatList.

Record Screen := mkScreen {
  list_state : State;
  refreshing : bool;
  error : option string;
  initialLoad : bool
}.

(** [fetchInitialData] once the query answered ([Some docs]) or threw
    ([None], with its message). *)
Definition fetchInitialData (limit : nat) (sc : Screen)
  (answer : option (list Post)) (message : string) : Screen :=
  let st := list_state sc in
  match answer with
  | Some docs =>
      mkScreen (mkState docs false (last (map Some docs) None)
                        (Nat.eqb (List.length docs) limit))
               (refreshing sc) None false
  | None =>
      mkScreen (mkState (data st) false (lastDoc st) (hasMore st))
               (refreshing sc) (Some message) (initialLoad sc)
  end.

(** [handleRefresh]: clears the list, then [fetchInitialData]. *)
Definition handleRefresh (limit : nat) (sc : Screen)
  (answer : option (list Post)) (message : string) : Screen :=
  fetchInitialData limit
    (mkScreen (mkState [] true None true) true None (initialLoad sc))
    answer message.

End PaginatedFlatListExt.

(* ================================================================== *)
(** * Properties *)

(** ** Generic list facts *)

Lemma count_id_app (i : string) (l1 l2 : list Post) :
  count_id i (l1 ++ l2) = count_id i l1 + count_id i l2.
Proof. unfold count_id. rewrite filter_app, length_app. reflexivity. Qed.


(** ** FeedScreen: the success branch of [loadFeed] re-appends the page *)

(** Whatever [uniqueById] keeps, the last [setPosts] appends the fetched
    page once more: each fetched id occurs at least twice. *)
Lemma FeedScreen_updatePosts_reappends (reset : bool) (prev fetched : list Post)
  (i : string) :
  count_id i (FeedScreen.updatePosts reset prev fetched)
  >= count_id i fetched
     + (if existsb (fun p => String.eqb (id p) i) fetched then 1 else 0).
Proof.
  unfold FeedScreen.updatePosts. rewrite count_id_app.
  destruct (existsb (fun p => String.eqb (id p) i) fetched) eqn:E; [| lia].
  assert (Hin : forall l seen, existsb (fun p => String.eqb (id p) i) l = true ->
                  includes seen i = false ->
                  count_id i (FeedScreen.uniqueById_from seen l) >= 1).
  { induction l as [| p l IH]; intros seen Hl Hs; simpl in Hl; [discriminate |].
    simpl. destruct (includes seen (id p)) eqn:Hp.
    - destruct (String.eqb (id p) i) eqn:Hpi.
      + apply String.eqb_eq in Hpi. subst i. rewrite Hs in Hp. discriminate.
      + apply IH; assumption.
    - unfold count_id. simpl. destruct (String.eqb (id p) i) eqn:Hpi; simpl; [lia |].
      apply IH; [exact Hl |]. unfold includes. simpl.
      rewrite String.eqb_sym, Hpi. exact Hs. }
  assert (H : count_id i (FeedScreen.uniqueById
                ((if reset then fetched else prev ++ fetched) ++ fetched)) >= 1).
  { apply Hin; [| reflexivity]. rewrite existsb_app, E, orb_true_r. reflexivity. }
  lia.
Qed.

(** The initial load of the spec's scenario shows page one twice. *)
Lemma FeedScreen_initial_load_shows_page_twice :
  FeedScreen.posts
    (FeedScreen.loadFeed Samples.onlineEnv Samples.freshCache
       (FeedScreen.ROk ["A"; "B"]%string [Samples.post1; Samples.post2])
       Samples.screen0 true false)
  = [Samples.post1; Samples.post2; Samples.post1; Samples.post2].
Proof. vm_compute. reflexivity. Qed.

(** ** C1 *)




(** ** C2 *)







(** ** C3 *)

(** With connectivity down, the top guard of [loadFeed] returns before
    the [!isConnected && reset] cache branch is reached: the screen is
    left as it was, whatever the cache holds. *)
Lemma FeedScreen_offline_returns_early (env : FeedScreen.Env) (c : FeedScreen.Cache)
  (r : FeedScreen.Remote) (s : FeedScreen.State) (reset silent : bool) :
  FeedScreen.isConnected env = false ->
  FeedScreen.loadFeed env c r s reset silent = s.
Proof.
  intros H. unfold FeedScreen.loadFeed, FeedScreen.loadFeed_returns_early.
  rewrite H. destruct silent, (FeedScreen.user env); reflexivity.
Qed.

(** Claim C3, counterexample: online, a fresh non-empty cache, and the
    remote query throws during the first load: the screen keeps no posts
    and offline mode stays off. *)
Lemma C3_remote_failure_ignores_cache :
  FeedScreen.loadCachedPosts Samples.onlineEnv Samples.freshCache true
    = Some [Samples.post1; Samples.post2]
  /\ FeedScreen.posts
       (FeedScreen.loadFeed Samples.onlineEnv Samples.freshCache FeedScreen.RFail
          Samples.screen0 true false) = []
  /\ FeedScreen.offlineMode
       (FeedScreen.loadFeed Samples.onlineEnv Samples.freshCache FeedScreen.RFail
          Samples.screen0 true false) = false.
Proof. vm_compute. repeat split. Qed.

(** Claim C3 (amended): when the device is connected and the remote
    query throws, [loadFeed] does not consult the cache: the posts and the
    offline flag are left as they were, and a non-silent load of a mounted
    screen shows one alert. *)
Theorem C3_remote_failure_keeps_state (env : FeedScreen.Env) (c : FeedScreen.Cache)
  (s : FeedScreen.State) (reset silent : bool)
  (Huser : FeedScreen.user env = true)
  (Hconn : FeedScreen.isConnected env = true)
  (Hreach : FeedScreen.internetReachable env = true) :
  FeedScreen.posts (FeedScreen.loadFeed env c FeedScreen.RFail s reset silent)
    = FeedScreen.posts s
  /\ FeedScreen.offlineMode (FeedScreen.loadFeed env c FeedScreen.RFail s reset silent)
     = FeedScreen.offlineMode s
  /\ FeedScreen.alerts (FeedScreen.loadFeed env c FeedScreen.RFail s reset silent)
     = FeedScreen.alerts s
       + (if FeedScreen.mounted s && negb silent then 1 else 0).
Proof.
  destruct env as [u ic ir bl nw]; simpl in Huser, Hconn, Hreach; subst.
  destruct s as [ps lo re lm lv hm ifl om mt al].
  unfold FeedScreen.loadFeed, FeedScreen.loadFeed_returns_early,
    FeedScreen.loadFeed_flags, FeedScreen.finally_, FeedScreen.add_alert; simpl.
  destruct reset, silent, mt, ifl; simpl; repeat split; lia.
Qed.

Lemma C3_remote_failure_keeps_state_witness :
  FeedScreen.alerts (FeedScreen.loadFeed Samples.onlineEnv Samples.freshCache
                       FeedScreen.RFail Samples.screen0 true false) = 1.
Proof.
  destruct (C3_remote_failure_keeps_state Samples.onlineEnv Samples.freshCache
              Samples.screen0 true false eq_refl eq_refl eq_refl) as [_ [_ H]].
  rewrite H. reflexivity.
Defined.

(** ** C4 *)

Lemma includes_app_single (l : list string) (u x : string) (f : string -> bool) :
  includes (filter f l ++ [u]) x = true -> includes (l ++ [u]) x = true.
Proof.
  unfold includes. rewrite !existsb_app. simpl.
  intros H. apply orb_true_iff in H as [H | H]; apply orb_true_iff; [left | right; exact H].
  apply existsb_exists in H as [y [Hy Heq]]. apply filter_In in Hy as [Hy _].
  apply existsb_exists. exists y. split; assumption.
Qed.

Lemma In_firstn_sub {A : Type} (n : nat) (l : list A) (x : A) :
  In x (firstn n l) -> In x l.
Proof.
  intros H. rewrite <- (firstn_skipn n l). apply in_or_app. left. exact H.
Qed.

(** Claim C4, counterexample: 25 followed users, page size 10, and the
    30 most recent posts are all by a stranger: the page is empty. *)
Lemma C4_filtered_page_can_be_short :
  PostsThunks.q_limit
    (fst (PostsThunks.fetchFeedPosts "me" [] 10 None Samples.followed25
            (fun _ => Samples.strangerPosts))) = 30
  /\ List.length (PostsSlice.page_posts
       (snd (PostsThunks.fetchFeedPosts "me" [] 10 None Samples.followed25
               (fun _ => Samples.strangerPosts)))) = 0.
Proof. vm_compute. split; reflexivity. Qed.

(** Claim C4 (amended): when the allowed ids (connections minus blocked
    users, plus the viewer) are more than 10, [fetchFeedPosts] issues an
    unfiltered query for [limit * 3] posts, keeps the posts whose author
    is allowed and truncates to [limit]: the page has
    [min limit (number of allowed posts fetched)] posts, all by allowed
    authors (unblocked connections or the viewer). *)
Theorem C4_fanout_filters_then_truncates (uid : string) (blocked : list string)
  (limit : nat) (lastDoc : option Post) (conns : list string)
  (answer : PostsThunks.FeedQuery -> list Post)
  (Hfan : 10 < List.length (PostsThunks.allUserIds uid blocked conns)) :
  let q := fst (PostsThunks.fetchFeedPosts uid blocked limit lastDoc conns answer) in
  let ps := PostsSlice.page_posts
              (snd (PostsThunks.fetchFeedPosts uid blocked limit lastDoc conns answer)) in
  PostsThunks.q_in q = None
  /\ PostsThunks.q_limit q = limit * 3
  /\ List.length ps
     = Nat.min limit
         (List.length (filter (fun d => includes (PostsThunks.allUserIds uid blocked conns)
                                          (userId d)) (answer q)))
  /\ Forall (fun p => includes (PostsThunks.allUserIds uid blocked conns) (userId p) = true)
            ps.
Proof.
  assert (Hle : (List.length (PostsThunks.allUserIds uid blocked conns) <=? 10)%nat = false)
    by (apply Nat.leb_gt; exact Hfan).
  unfold PostsThunks.fetchFeedPosts, PostsThunks.fetchFeedPosts_query.
  cbv zeta. simpl fst. simpl snd. rewrite Hle. simpl.
  split; [reflexivity | split; [reflexivity | split]].
  - apply length_firstn.
  - apply Forall_forall. intros p Hp.
    apply In_firstn_sub in Hp.
    apply filter_In in Hp as [_ Hp]. exact Hp.
Qed.

Lemma C4_fanout_filters_then_truncates_witness :
  PostsThunks.q_limit
    (fst (PostsThunks.fetchFeedPosts "me" [] 10 None Samples.followed25
            (fun _ => Samples.followedPosts))) = 30
  /\ List.length (PostsSlice.page_posts
       (snd (PostsThunks.fetchFeedPosts "me" [] 10 None Samples.followed25
               (fun _ => Samples.followedPosts)))) = 10.
Proof.
  destruct (C4_fanout_filters_then_truncates "me" [] 10 None Samples.followed25
              (fun _ => Samples.followedPosts)) as [_ [Hq [Hl _]]].
  - vm_compute. lia.
  - split; [rewrite Hq; reflexivity | rewrite Hl; vm_compute; reflexivity].
Defined.

(** ** C5 *)

Lemma find_post_id (i : string) (ps : list Post) (p : Post) :
  PostsThunks.find_post i ps = Some p -> id p = i.
Proof.
  unfold PostsThunks.find_post. intros H. apply find_some in H as [_ H].
  apply String.eqb_eq. exact H.
Qed.

Lemma find_post_replace (i : string) (ps : list Post) (p q : Post) :
  PostsThunks.find_post i ps = Some p -> id q = i ->
  PostsThunks.find_post i (PostsThunks.replace_post q ps) = Some q.
Proof.
  intros Hf Hq. subst i.
  induction ps as [| a ps IH]; [discriminate |].
  unfold PostsThunks.find_post in *. simpl in *.
  destruct (String.eqb (id a) (id q)) eqn:Ha; simpl.
  - rewrite String.eqb_refl. reflexivity.
  - rewrite Ha. apply IH. exact Hf.
Qed.


Lemma includes_app_last (xs : list string) (x : string) :
  includes (xs ++ [x]) x = true.
Proof.
  unfold includes. rewrite existsb_app. simpl. rewrite String.eqb_refl.
  apply orb_true_r.
Qed.





(** ** C6 *)



(** ** C7 *)


(** ** C8 *)



Lemma loadFeed_flags_fields (reset silent : bool) (s : FeedScreen.State) :
  let s1 := FeedScreen.loadFeed_flags reset silent s in
  FeedScreen.posts s1 = FeedScreen.posts s
  /\ FeedScreen.mounted s1 = FeedScreen.mounted s
  /\ FeedScreen.offlineMode s1 = FeedScreen.offlineMode s
  /\ FeedScreen.hasMorePosts s1 = FeedScreen.hasMorePosts s
  /\ FeedScreen.alerts s1 = FeedScreen.alerts s.
Proof.
  unfold FeedScreen.loadFeed_flags. cbv zeta.
  destruct (FeedScreen.mounted s && negb silent), reset, (FeedScreen.isFirstLoad s);
    repeat split.
Qed.

Lemma finally_fields (s : FeedScreen.State) :
  FeedScreen.posts (FeedScreen.finally_ s) = FeedScreen.posts s
  /\ FeedScreen.mounted (FeedScreen.finally_ s) = FeedScreen.mounted s
  /\ FeedScreen.offlineMode (FeedScreen.finally_ s) = FeedScreen.offlineMode s
  /\ FeedScreen.hasMorePosts (FeedScreen.finally_ s) = FeedScreen.hasMorePosts s
  /\ FeedScreen.lastVisible (FeedScreen.finally_ s) = FeedScreen.lastVisible s
  /\ FeedScreen.alerts (FeedScreen.finally_ s) = FeedScreen.alerts s
  /\ (FeedScreen.mounted s = true ->
      FeedScreen.loading (FeedScreen.finally_ s) = false
      /\ FeedScreen.refreshing (FeedScreen.finally_ s) = false
      /\ FeedScreen.loadingMore (FeedScreen.finally_ s) = false).
Proof.
  unfold FeedScreen.finally_. destruct (FeedScreen.mounted s) eqn:E;
    repeat split; try reflexivity; try (symmetry; exact E); try exact E;
    discriminate.
Qed.

Lemma loadFeed_online_no_early_return (env : FeedScreen.Env) (silent : bool) :
  FeedScreen.user env = true -> FeedScreen.isConnected env = true ->
  FeedScreen.loadFeed_returns_early env silent = false.
Proof.
  intros Hu Hc. unfold FeedScreen.loadFeed_returns_early. rewrite Hu, Hc.
  destruct silent; reflexivity.
Qed.





(** ** C9 *)

(** In the array slice, [unreadCount] stays equal to the number of unread
    entries of the list through any sequence of the slice's actions, once
    it is so at the start (as in the initial state). *)
Lemma NotificationsArray_unreadCount_consistent (acts : list NotificationsArray.Action)
  (st : NotificationsArray.State) :
  NotificationsArray.unreadCount st
    = List.length (NotificationsArray.unread (NotificationsArray.notifications st)) ->
  NotificationsArray.unreadCount (NotificationsArray.run st acts)
    = List.length (NotificationsArray.unread
                     (NotificationsArray.notifications (NotificationsArray.run st acts))).
Proof.
  revert st. induction acts as [| a acts IH]; intros st H; [exact H |].
  apply IH. destruct a; simpl; try reflexivity.
  unfold NotificationsArray.unread in *. rewrite filter_app, length_app. lia.
Qed.

(** Claim C9 (code bug): a notification fetched, then pushed again
    through [addNotification]: the list holds it twice ([unshift] does not
    check ids, unlike the fetch case). The count of unread entries is
    kept in step. *)
Theorem C9_pushed_notification_duplicated :
  let n1 := NotificationsArray.mkNotif "n1" false in
  let st := NotificationsArray.run NotificationsArray.initialState
              [NotificationsArray.fetchNotifications_fulfilled [n1];
               NotificationsArray.addNotification n1] in
  NotificationsArray.notifications st = [n1; n1]
  /\ NotificationsArray.nids_unique (NotificationsArray.notifications st) = false
  /\ NotificationsArray.unreadCount st = 2.
Proof. vm_compute. repeat split. Qed.

(** ** C10 *)

(** Claim C10 (code bug): on the initial state, where [notifications] is
    the object literal [{}], [addNotification] and a non-empty
    [fetchNotifications.fulfilled] call [.set] on it and throw a
    [TypeError]. *)
Theorem C10_map_slice_throws_on_initial_state (n : NotificationsMap.Notif)
  (ns : list NotificationsMap.Notif) :
  NotificationsMap.addNotification NotificationsMap.initialState n
    = NotificationsMap.TypeError NotificationsMap.not_a_function
  /\ NotificationsMap.fetchNotifications_fulfilled NotificationsMap.initialState (n :: ns)
    = NotificationsMap.TypeError NotificationsMap.not_a_function.
Proof. split; reflexivity. Qed.

(* ================================================================== *)
(** * Further properties of the code *)

(** ** Array-based notifications slice *)

Lemma NotificationsArray_unreadCount_consistent_witness :
  NotificationsArray.unreadCount
    (NotificationsArray.run NotificationsArray.initialState
       [NotificationsArray.fetchNotifications_fulfilled
          [NotificationsArray.mkNotif "a" false; NotificationsArray.mkNotif "b" true];
        NotificationsArray.markAsRead_fulfilled ["a"%string]])
  = 0.
Proof.
  rewrite (NotificationsArray_unreadCount_consistent
             [NotificationsArray.fetchNotifications_fulfilled
                [NotificationsArray.mkNotif "a" false; NotificationsArray.mkNotif "b" true];
              NotificationsArray.markAsRead_fulfilled ["a"%string]]
             NotificationsArray.initialState eq_refl).
  vm_compute. reflexivity.
Defined.

(** [markAsRead.fulfilled] keeps the list and its order, marks every
    listed id read, leaves the other entries as they were, and a second
    identical action changes nothing. *)
Theorem NotificationsArray_markAsRead_marks (st : NotificationsArray.State)
  (ids : list string) :
  let st' := NotificationsArray.reducer st (NotificationsArray.markAsRead_fulfilled ids) in
  map NotificationsArray.n_id (NotificationsArray.notifications st')
    = map NotificationsArray.n_id (NotificationsArray.notifications st)
  /\ Forall (fun n => includes ids (NotificationsArray.n_id n) = true ->
                      NotificationsArray.read n = true)
            (NotificationsArray.notifications st')
  /\ (forall i n, nth_error (NotificationsArray.notifications st) i = Some n ->
                  includes ids (NotificationsArray.n_id n) = false ->
                  nth_error (NotificationsArray.notifications st') i = Some n)
  /\ NotificationsArray.reducer st' (NotificationsArray.markAsRead_fulfilled ids) = st'.
Proof.
  set (f := fun n : NotificationsArray.Notif =>
              if includes ids (NotificationsArray.n_id n)
              then NotificationsArray.mkNotif (NotificationsArray.n_id n) true else n).
  assert (Hid : forall n, NotificationsArray.n_id (f n) = NotificationsArray.n_id n)
    by (intros n; unfold f; destruct (includes ids _); reflexivity).
  assert (Hff : forall n, f (f n) = f n).
  { intros n. unfold f at 2. destruct (includes ids (NotificationsArray.n_id n)) eqn:E.
    - unfold f. simpl. rewrite E. reflexivity.
    - unfold f. rewrite E. reflexivity. }
  simpl. fold f. split; [| split; [| split]].
  - rewrite map_map. apply map_ext. exact Hid.
  - apply Forall_forall. intros n Hn. apply in_map_iff in Hn as [m [<- _]].
    unfold f. destruct (includes ids (NotificationsArray.n_id m)) eqn:E;
      [reflexivity | rewrite E; discriminate].
  - intros i n Hn Hno. rewrite nth_error_map, Hn. simpl. unfold f. rewrite Hno. reflexivity.
  - rewrite map_map. rewrite (map_ext _ _ Hff). reflexivity.
Qed.

Lemma nids_unique_NoDup (ns : list NotificationsArray.Notif) :
  NotificationsArray.nids_unique ns = true <-> NoDup (map NotificationsArray.n_id ns).
Proof.
  induction ns as [| n ns IH]; simpl; [split; [constructor | reflexivity] |].
  rewrite andb_true_iff, negb_true_iff, IH. split.
  - intros [Hn Hd]. constructor; [| exact Hd].
    intros Hin. apply in_map_iff in Hin as [m [Hm Hin]].
    assert (existsb (fun m => String.eqb (NotificationsArray.n_id m)
                                         (NotificationsArray.n_id n)) ns = true)
      by (apply existsb_exists; exists m; split; [exact Hin | apply String.eqb_eq; exact Hm]).
    congruence.
  - intros Hd. inversion Hd as [| x l Hx Hd']. split; [| exact Hd'].
    destruct (existsb _ ns) eqn:E; [| reflexivity].
    apply existsb_exists in E as [m [Hin Hm]]. apply String.eqb_eq in Hm.
    exfalso. apply Hx. apply in_map_iff. exists m. split; assumption.
Qed.

Lemma NoDup_map_filter {A B : Type} (g : A -> B) (f : A -> bool) (l : list A) :
  NoDup (map g l) -> NoDup (map g (filter f l)).
Proof.
  induction l as [| a l IH]; simpl; intros H; [constructor |].
  inversion H as [| x y Hx Hd]. destruct (f a); simpl; [| apply IH; exact Hd].
  constructor; [| apply IH; exact Hd].
  intros Hin. apply Hx. apply in_map_iff in Hin as [b [Hb Hin]].
  apply filter_In in Hin as [Hin _]. rewrite <- Hb. apply in_map. exact Hin.
Qed.

(** [fetchNotifications.fulfilled] keeps ids unique: entries whose id is
    already present are dropped, so a list without duplicate ids extended
    by a payload without duplicate ids has none either. *)
Theorem NotificationsArray_fetch_keeps_ids_unique (st : NotificationsArray.State)
  (payload : list NotificationsArray.Notif)
  (Hst : NotificationsArray.nids_unique (NotificationsArray.notifications st) = true)
  (Hpl : NotificationsArray.nids_unique payload = true) :
  NotificationsArray.nids_unique
    (NotificationsArray.notifications
       (NotificationsArray.reducer st
          (NotificationsArray.fetchNotifications_fulfilled payload))) = true.
Proof.
  apply nids_unique_NoDup in Hst, Hpl. apply nids_unique_NoDup. simpl.
  rewrite map_app. apply NoDup_app; [exact Hst | apply NoDup_map_filter; exact Hpl |].
  intros a Ha Hb. apply in_map_iff in Hb as [n [Hn Hin]].
  apply filter_In in Hin as [_ Hf]. apply negb_true_iff in Hf.
  apply in_map_iff in Ha as [m [Hm Hm']].
  assert (existsb (fun m => String.eqb (NotificationsArray.n_id m) (NotificationsArray.n_id n))
            (NotificationsArray.notifications st) = true)
    by (apply existsb_exists; exists m; split; [exact Hm' | apply String.eqb_eq; congruence]).
  congruence.
Qed.

Lemma NotificationsArray_fetch_keeps_ids_unique_witness :
  NotificationsArray.nids_unique
    (NotificationsArray.notifications
       (NotificationsArray.reducer
          (NotificationsArray.mkState [NotificationsArray.mkNotif "a" false] 1)
          (NotificationsArray.fetchNotifications_fulfilled
             [NotificationsArray.mkNotif "a" false; NotificationsArray.mkNotif "b" false])))
  = true.
Proof. apply NotificationsArray_fetch_keeps_ids_unique; reflexivity. Defined.

Lemma batches_loop_concat (f i : nat) (ids : list string) :
  (List.length ids <= i + NotificationsArrayThunks.BATCH_SIZE * f)%nat ->
  List.concat (NotificationsArrayThunks.batches_loop f i ids) = skipn i ids.
Proof.
  revert i. induction f as [| f IH]; intros i H;
    cbn [NotificationsArrayThunks.batches_loop].
  - rewrite skipn_all2 by lia. reflexivity.
  - destruct (i <? List.length ids)%nat eqn:E.
    + rewrite concat_cons, IH by (unfold NotificationsArrayThunks.BATCH_SIZE in *; lia).
      rewrite Nat.add_comm, <- skipn_skipn. apply firstn_skipn.
    + apply Nat.ltb_ge in E. rewrite skipn_all2 by lia. reflexivity.
Qed.

Lemma batches_loop_sizes (f i : nat) (ids : list string) :
  Forall (fun b => 1 <= List.length b <= NotificationsArrayThunks.BATCH_SIZE)%nat
         (NotificationsArrayThunks.batches_loop f i ids).
Proof.
  revert i. induction f as [| f IH]; intros i;
    cbn [NotificationsArrayThunks.batches_loop]; [constructor |].
  destruct (i <? List.length ids)%nat eqn:E; [| constructor].
  apply Nat.ltb_lt in E. constructor; [| apply IH].
  rewrite length_firstn, length_skipn. unfold NotificationsArrayThunks.BATCH_SIZE. lia.
Qed.

(** The [markAllAsRead] thunk of the array slice sends every unread id
    exactly once, in list order, in batches of 1 to 50 ids, and sends
    nothing when no notification is unread. *)
Theorem NotificationsArray_markAllAsRead_batches (ns : list NotificationsArray.Notif) :
  List.concat (NotificationsArrayThunks.markAllAsRead_batches ns)
    = NotificationsArrayThunks.unreadIds ns
  /\ Forall (fun b => 1 <= List.length b <= 50)%nat
            (NotificationsArrayThunks.markAllAsRead_batches ns).
Proof.
  unfold NotificationsArrayThunks.markAllAsRead_batches.
  destruct (NotificationsArrayThunks.unreadIds ns) as [| x xs] eqn:E;
    [split; [reflexivity | constructor] |].
  split; [| apply batches_loop_sizes].
  rewrite batches_loop_concat; [reflexivity |].
  unfold NotificationsArrayThunks.BATCH_SIZE. lia.
Qed.

(** ** postsSlice reducers *)

Section ObjectLemmas.
Context {V : Type}.





End ObjectLemmas.











Lemma filter_length_lt {A : Type} (f : A -> bool) (l : list A) :
  Exists (fun x => f x = false) l -> (List.length (filter f l) < List.length l)%nat.
Proof.
  induction l as [| x l IH]; intros H; [inversion H |].
  simpl. pose proof (filter_length_le f l) as Hle.
  inversion H as [y z Hx | y z Hl]; subst.
  - rewrite Hx. lia.
  - specialize (IH Hl). destruct (f x); simpl; lia.
Qed.

(** The [fetchComments] thunk drops exactly the comments by blocked
    users; it reports more pages only when the kept comments fill the
    limit, so a full page that held a blocked user's comment reports no
    more pages. *)
Theorem PostsSliceExt_fetchComments_filters (blocked : list string) (limit : nat)
  (docs : list PostsSliceExt.Comment) :
  let r := PostsSliceExt.fetchComments blocked limit docs in
  (forall c, In c (fst r) <->
             In c docs /\ includes blocked (PostsSliceExt.cm_userId c) = false)
  /\ (snd r = true -> List.length (fst r) = limit)
  /\ (List.length docs = limit ->
      Exists (fun c => includes blocked (PostsSliceExt.cm_userId c) = true) docs ->
      snd r = false).
Proof.
  simpl. split; [| split].
  - intros c. rewrite filter_In, negb_true_iff. reflexivity.
  - apply Nat.eqb_eq.
  - intros Hlen Hex. apply Nat.eqb_neq. rewrite <- Hlen.
    apply Nat.lt_neq. apply filter_length_lt.
    eapply Exists_impl; [| exact Hex]. intros c Hc. rewrite Hc. reflexivity.
Qed.


(** ** FeedScreen *)

Lemma loadMorePosts_no_more (env : FeedScreen.Env) (s : FeedScreen.State) :
  FeedScreen.hasMorePosts s = false \/ FeedScreen.offlineMode s = true ->
  FeedScreen.loadMorePosts env s = (s, []).
Proof.
  intros H. unfold FeedScreen.loadMorePosts.
  destruct H as [H | H]; rewrite H;
    [rewrite andb_false_r | rewrite andb_false_r]; reflexivity.
Qed.

(** A [loadFeed] run whose queries succeed, with a user and the network
    up: the screen leaves offline mode, the cursor is the last document
    fetched, more pages are expected exactly when the page is full (ten
    posts), every loading indicator is off again, and after a short page
    [loadMorePosts] does nothing. *)
Theorem FeedScreen_loadFeed_success (env : FeedScreen.Env) (c : FeedScreen.Cache)
  (conns : list string) (docs : list Post) (s : FeedScreen.State) (reset silent : bool)
  (Hu : FeedScreen.user env = true) (Hc : FeedScreen.isConnected env = true)
  (Hr : FeedScreen.internetReachable env = true) (Hm : FeedScreen.mounted s = true) :
  let s' := FeedScreen.loadFeed env c (FeedScreen.ROk conns docs) s reset silent in
  FeedScreen.offlineMode s' = false
  /\ FeedScreen.lastVisible s' = last (map Some docs) None
  /\ FeedScreen.hasMorePosts s' = Nat.eqb (List.length docs) 10
  /\ FeedScreen.loading s' = false /\ FeedScreen.refreshing s' = false
  /\ FeedScreen.loadingMore s' = false
  /\ ((List.length docs < 10)%nat -> FeedScreen.loadMorePosts env s' = (s', [])).
Proof.
  unfold FeedScreen.loadFeed.
  rewrite (loadFeed_online_no_early_return env silent Hu Hc), Hc, Hr.
  destruct (loadFeed_flags_fields reset silent s) as [_ [Hm1 _]].
  set (s1 := FeedScreen.loadFeed_flags reset silent s) in *.
  cbn [negb andb]. rewrite Hm1, Hm.
  set (s3 := FeedScreen.set_offline false _).
  destruct (finally_fields s3) as [_ [_ [Ho [Hh [Hl [_ Hf]]]]]].
  assert (Hm3 : FeedScreen.mounted s3 = true) by (subst s3; simpl; rewrite Hm1; exact Hm).
  destruct (Hf Hm3) as [Hf1 [Hf2 Hf3]].
  rewrite Ho, Hh, Hl, Hf1, Hf2, Hf3. subst s3. simpl.
  repeat split. intros Hlt. apply loadMorePosts_no_more. left.
  rewrite Hh. simpl. apply Nat.eqb_neq. unfold FeedScreen.POSTS_PER_PAGE. lia.
Qed.

Lemma FeedScreen_loadFeed_success_witness :
  FeedScreen.hasMorePosts
    (FeedScreen.loadFeed Samples.onlineEnv Samples.freshCache
       (FeedScreen.ROk [] [Samples.post1]) Samples.screen0 true false) = false.
Proof.
  destruct (FeedScreen_loadFeed_success Samples.onlineEnv Samples.freshCache []
              [Samples.post1] Samples.screen0 true false eq_refl eq_refl eq_refl eq_refl)
    as [_ [_ [H _]]].
  rewrite H. reflexivity.
Defined.

(** With a user and a network connection but no internet access,
    [loadFeed] issues no query and reaches no [await]: it sets offline
    mode and leaves the posts and the alerts as they were, whatever the
    cache and the remote would have answered. *)
Theorem FeedScreen_loadFeed_unreachable (env : FeedScreen.Env) (c : FeedScreen.Cache)
  (r : FeedScreen.Remote) (s : FeedScreen.State) (reset silent : bool)
  (Hu : FeedScreen.user env = true) (Hc : FeedScreen.isConnected env = true)
  (Hr : FeedScreen.internetReachable env = false) :
  let s' := FeedScreen.loadFeed env c r s reset silent in
  FeedScreen.loadFeed_begin env s reset silent = (s', [])
  /\ FeedScreen.posts s' = FeedScreen.posts s
  /\ FeedScreen.offlineMode s' = true
  /\ FeedScreen.alerts s' = FeedScreen.alerts s.
Proof.
  unfold FeedScreen.loadFeed, FeedScreen.loadFeed_begin.
  rewrite (loadFeed_online_no_early_return env silent Hu Hc), Hc, Hr.
  cbn [negb andb].
  destruct (loadFeed_flags_fields reset silent s) as [Hp1 [_ [_ [_ Ha1]]]].
  set (s1 := FeedScreen.loadFeed_flags reset silent s) in *.
  destruct (finally_fields (FeedScreen.set_offline true s1)) as [Hp [_ [Ho [_ [_ [Ha _]]]]]].
  rewrite Hp, Ho, Ha. simpl. repeat split; assumption.
Qed.

Lemma FeedScreen_loadFeed_unreachable_witness :
  FeedScreen.offlineMode
    (FeedScreen.loadFeed (FeedScreen.mkEnv true true false [] 1000) Samples.freshCache
       FeedScreen.RFail Samples.screen0 true false) = true.
Proof.
  destruct (FeedScreen_loadFeed_unreachable (FeedScreen.mkEnv true true false [] 1000)
              Samples.freshCache FeedScreen.RFail Samples.screen0 true false
              eq_refl eq_refl eq_refl) as [_ [_ [H _]]].
  exact H.
Defined.

(** The connectivity effect when the connection or internet access is
    lost: the posts stay; with posts on screen the screen enters offline
    mode and [loadMorePosts] then does nothing, while with no posts the
    state is left unchanged (offline mode is not entered). *)
Theorem FeedScreen_connectivity_lost (env : FeedScreen.Env) (c : FeedScreen.Cache)
  (r : FeedScreen.Remote) (s : FeedScreen.State)
  (Hdown : negb (FeedScreen.isConnected env) || negb (FeedScreen.internetReachable env)
           = true) :
  let s' := FeedScreenExt.handleConnectivityChange env c r s in
  FeedScreen.posts s' = FeedScreen.posts s
  /\ (FeedScreen.posts s <> [] ->
      FeedScreen.offlineMode s' = true /\ FeedScreen.loadMorePosts env s' = (s', []))
  /\ (FeedScreen.posts s = [] -> s' = s).
Proof.
  unfold FeedScreenExt.handleConnectivityChange.
  assert (Hup : FeedScreen.isConnected env && FeedScreen.internetReachable env = false)
    by (destruct (FeedScreen.isConnected env), (FeedScreen.internetReachable env);
        simpl in *; congruence).
  rewrite Hup, Hdown. cbn [andb].
  destruct (FeedScreen.posts s) as [| p ps] eqn:Ep; simpl.
  - split; [exact Ep | split]; [intros H; contradiction H; reflexivity |].
    intros _. reflexivity.
  - split; [exact Ep | split; [| discriminate]]. intros _. split; [reflexivity |].
    apply loadMorePosts_no_more. right. reflexivity.
Qed.

Lemma FeedScreen_connectivity_lost_witness :
  FeedScreen.offlineMode
    (FeedScreenExt.handleConnectivityChange Samples.offlineEnv Samples.freshCache
       FeedScreen.RFail (FeedScreen.set_posts [Samples.post1] Samples.screen0)) = true.
Proof.
  destruct (FeedScreen_connectivity_lost Samples.offlineEnv Samples.freshCache
              FeedScreen.RFail (FeedScreen.set_posts [Samples.post1] Samples.screen0)
              eq_refl) as [_ [H _]].
  apply H. discriminate.
Defined.

(** The connectivity effect when the network comes back while the screen
    is in offline mode: it leaves offline mode and reloads the feed from
    the start ([loadFeed(true)]), whether the reload succeeds or fails.
    On a mounted screen a successful reload replaces the posts by the
    fetched page as the reset branch of [loadFeed] builds it (independent
    of the posts shown before) and sets the cursor and [hasMorePosts] from
    the page; a failed reload keeps the posts and shows one alert. *)
Theorem FeedScreen_connectivity_restored (env : FeedScreen.Env) (c : FeedScreen.Cache)
  (r : FeedScreen.Remote) (s : FeedScreen.State)
  (Hu : FeedScreen.user env = true) (Hc : FeedScreen.isConnected env = true)
  (Hr : FeedScreen.internetReachable env = true) (Ho : FeedScreen.offlineMode s = true) :
  let s' := FeedScreenExt.handleConnectivityChange env c r s in
  FeedScreen.offlineMode s' = false
  /\ (forall conns docs, r = FeedScreen.ROk conns docs -> FeedScreen.mounted s = true ->
        FeedScreen.posts s' = FeedScreen.updatePosts true [] docs
        /\ FeedScreen.lastVisible s' = last (map Some docs) None
        /\ FeedScreen.hasMorePosts s' = Nat.eqb (List.length docs) 10)
  /\ (r = FeedScreen.RFail -> FeedScreen.mounted s = true ->
        FeedScreen.posts s' = FeedScreen.posts s
        /\ FeedScreen.alerts s' = S (FeedScreen.alerts s)).
Proof.
  unfold FeedScreenExt.handleConnectivityChange. rewrite Hc, Hr, Ho. cbn [andb].
  unfold FeedScreen.loadFeed.
  rewrite (loadFeed_online_no_early_return env false Hu Hc), Hc, Hr. cbn [negb andb].
  destruct (loadFeed_flags_fields true false (FeedScreen.set_offline false s))
    as [Hp1 [Hm1 [Ho1 [_ Ha1]]]].
  set (s1 := FeedScreen.loadFeed_flags true false _) in *.
  simpl in Hp1, Hm1, Ho1, Ha1.
  split; [| split].
  - destruct r as [| conns docs];
      rewrite (proj1 (proj2 (proj2 (finally_fields _)))); [| reflexivity].
    destruct (FeedScreen.mounted s1 && true); exact Ho1.
  - intros conns docs -> Hm. cbv iota. rewrite Hm1, Hm.
    destruct (finally_fields (FeedScreen.set_offline false
                (FeedScreen.set_page (last (map Some docs) None)
                   (Nat.eqb (List.length docs) FeedScreen.POSTS_PER_PAGE)
                   (FeedScreen.set_posts
                      (FeedScreen.updatePosts true (FeedScreen.posts s1) docs) s1))))
      as [Hp [_ [_ [Hh [Hl _]]]]].
    rewrite Hp, Hh, Hl. simpl. repeat split.
  - intros -> Hm. cbv iota. rewrite Hm1, Hm. simpl andb. cbv iota.
    destruct (finally_fields (FeedScreen.add_alert s1)) as [Hp [_ [_ [_ [_ [Ha _]]]]]].
    rewrite Hp, Ha. simpl. rewrite Hp1, Ha1. split; reflexivity.
Qed.

Lemma FeedScreen_connectivity_restored_witness :
  FeedScreen.posts
    (FeedScreenExt.handleConnectivityChange Samples.onlineEnv Samples.freshCache
       (FeedScreen.ROk [] [Samples.post1])
       (FeedScreen.set_offline true (FeedScreen.set_posts [Samples.post3] Samples.screen0)))
  = [Samples.post1; Samples.post1].
Proof.
  destruct (FeedScreen_connectivity_restored Samples.onlineEnv Samples.freshCache
              (FeedScreen.ROk [] [Samples.post1])
              (FeedScreen.set_offline true (FeedScreen.set_posts [Samples.post3] Samples.screen0))
              eq_refl eq_refl eq_refl eq_refl) as [_ [H _]].
  destruct (H [] [Samples.post1] eq_refl eq_refl) as [Hp _].
  rewrite Hp. vm_compute. reflexivity.
Defined.

(** ** PaginatedFlatList *)

(** [fetchMoreData] appends the page to the list and clears [loading];
    after a page shorter (or longer) than the limit a further
    [fetchMoreData] issues no query and changes nothing, after a full
    page it queries the next page after the page's last document. *)
Theorem PaginatedFlatList_fetchMore_pagination (limit : nat)
  (st : PaginatedFlatList.State) (docs : list Post) :
  let st' := PaginatedFlatList.fetchMoreData_end limit st docs in
  PaginatedFlatList.data st' = PaginatedFlatList.data st ++ docs
  /\ PaginatedFlatList.loading st' = false
  /\ (List.length docs <> limit ->
      PaginatedFlatList.fetchMoreData_begin limit st' = (st', []))
  /\ (List.length docs = limit ->
      snd (PaginatedFlatList.fetchMoreData_begin limit st')
      = [PaginatedFlatList.QueryAfter (last (map Some docs) None) limit]).
Proof.
  simpl. split; [reflexivity | split; [reflexivity | split]].
  - intros H. apply Nat.eqb_neq in H.
    unfold PaginatedFlatList.fetchMoreData_begin. simpl. rewrite H. reflexivity.
  - intros H. apply Nat.eqb_eq in H.
    unfold PaginatedFlatList.fetchMoreData_begin. simpl. rewrite H. reflexivity.
Qed.

(** [handleRefresh] clears the list and reloads the first page: on
    success the list is that page and the error is cleared; on failure
    the list stays empty with the error message shown. Either way
    [refreshing] stays on, as nothing sets it back. *)
Theorem PaginatedFlatList_handleRefresh (limit : nat) (sc : PaginatedFlatListExt.Screen)
  (answer : option (list Post)) (message : string) :
  let sc' := PaginatedFlatListExt.handleRefresh limit sc answer message in
  PaginatedFlatListExt.refreshing sc' = true
  /\ PaginatedFlatList.loading (PaginatedFlatListExt.list_state sc') = false
  /\ (forall docs, answer = Some docs ->
        PaginatedFlatList.data (PaginatedFlatListExt.list_state sc') = docs
        /\ PaginatedFlatListExt.error sc' = None)
  /\ (answer = None ->
        PaginatedFlatList.data (PaginatedFlatListExt.list_state sc') = []
        /\ PaginatedFlatListExt.error sc' = Some message).
Proof.
  destruct answer as [docs |]; simpl; repeat split; try reflexivity;
    intros; congruence.
Qed.

(** ** postsSlice thunks *)

Lemma allUserIds_nonempty (uid : string) (blocked conns : list string) :
  PostsThunks.allUserIds uid blocked conns <> [].
Proof.
  unfold PostsThunks.allUserIds. intros H. apply app_eq_nil in H as [_ H]. discriminate.
Qed.

(** [fetchFeedPosts] with at most ten user ids (the unblocked connections
    and the viewer, last): it queries posts by exactly those ids, with the
    page limit and the cursor, and returns what the query answered; more
    pages are announced when the answer fills the limit. No blocked id
    other than the viewer's is queried. *)
Theorem PostsThunks_fetchFeedPosts_direct (uid : string) (blocked : list string)
  (limit : nat) (lastDoc : option Post) (conns : list string)
  (answer : PostsThunks.FeedQuery -> list Post)
  (Hsmall : (List.length (PostsThunks.allUserIds uid blocked conns) <= 10)%nat) :
  let r := PostsThunks.fetchFeedPosts uid blocked limit lastDoc conns answer in
  fst r = PostsThunks.mkFeedQuery (Some (PostsThunks.allUserIds uid blocked conns))
                                  limit lastDoc
  /\ PostsSlice.page_posts (snd r) = answer (fst r)
  /\ PostsSlice.page_hasMore (snd r) = Nat.eqb (List.length (answer (fst r))) limit
  /\ (forall i, In i (PostsThunks.allUserIds uid blocked conns) -> i <> uid ->
        In i conns /\ includes blocked i = false).
Proof.
  assert (Hq : PostsThunks.fetchFeedPosts_query uid blocked limit lastDoc conns
               = PostsThunks.mkFeedQuery (Some (PostsThunks.allUserIds uid blocked conns))
                                         limit lastDoc).
  { unfold PostsThunks.fetchFeedPosts_query. apply Nat.leb_le in Hsmall. rewrite Hsmall.
    destruct (PostsThunks.allUserIds uid blocked conns) eqn:E; [| reflexivity].
    exfalso. exact (allUserIds_nonempty uid blocked conns E). }
  unfold PostsThunks.fetchFeedPosts. apply Nat.leb_le in Hsmall. rewrite Hsmall, Hq.
  simpl. split; [reflexivity | split; [reflexivity | split; [reflexivity |]]].
  intros i Hi Hne. unfold PostsThunks.allUserIds in Hi.
  apply in_app_or in Hi as [Hi | [Hi | []]]; [| congruence].
  apply filter_In in Hi as [Hi Hb]. apply negb_true_iff in Hb. split; assumption.
Qed.

Lemma PostsThunks_fetchFeedPosts_direct_witness :
  PostsSlice.page_posts
    (snd (PostsThunks.fetchFeedPosts "A" [] 10 None ["B"%string]
            (fun _ => [Samples.post1; Samples.post2])))
  = [Samples.post1; Samples.post2].
Proof.
  destruct (PostsThunks_fetchFeedPosts_direct "A" [] 10 None ["B"%string]
              (fun _ => [Samples.post1; Samples.post2])) as [_ [H _]];
    [simpl; lia |].
  exact H.
Defined.

(** The ['userId' in ...] filter of FeedScreen's posts query never holds
    more than ten ids. With fewer than ten unblocked connections it holds
    all of them and then the viewer; with ten or more it holds the first
    ten unblocked connections only, so the viewer's own posts are not
    queried. *)
Theorem FeedScreen_postsQuery_in_shape (env : FeedScreen.Env) (viewer : string)
  (conns : list string) :
  let unblocked := filter (fun i => negb (includes (FeedScreen.blockedUsers env) i)) conns in
  (List.length (FeedScreen.postsQuery_in env viewer conns) <= 10)%nat
  /\ ((List.length unblocked < 10)%nat ->
      FeedScreen.postsQuery_in env viewer conns = unblocked ++ [viewer])
  /\ ((10 <= List.length unblocked)%nat ->
      FeedScreen.postsQuery_in env viewer conns = firstn 10 unblocked).
Proof.
  intros unblocked. unfold FeedScreen.postsQuery_in. fold unblocked.
  rewrite length_app. simpl. split; [| split].
  - rewrite length_firstn. lia.
  - intros H. rewrite firstn_all2; [reflexivity |]. rewrite length_app. simpl. lia.
  - intros H. replace (Nat.min (List.length unblocked + 1) 10) with 10 by lia.
    rewrite firstn_app. replace (10 - List.length unblocked) with 0 by lia.
    rewrite app_nil_r. reflexivity.
Qed.

(** [toggleLike] reads the post and updates it in two separate awaits,
    with no transaction. When two calls by the same user on a post the
    user has not liked both read it before either update lands, both take
    the like branch: [arrayUnion] adds the user once but [increment(1)]
    runs twice, so [likeCount] ends one above the number of likes even
    though the two matched before. *)
Theorem PostsThunks_interleaved_toggleLike_overcounts (postId uid : string)
  (r : PostsThunks.RemoteStore) (p : Post)
  (Hget : PostsThunks.toggleLike_get postId r = Some p)
  (Hnot : includes (likes p) uid = false)
  (Hc : likeCount p = Z.of_nat (List.length (likes p))) :
  (* both calls read [p], so both compute the same [isLiked] *)
  let isLiked := includes (likes p) uid in
  exists r1 r2 q,
    PostsThunks.toggleLike_update postId uid isLiked r = Some r1
    /\ PostsThunks.toggleLike_update postId uid isLiked r1 = Some r2
    /\ PostsThunks.toggleLike_get postId r2 = Some q
    /\ likes q = likes p ++ [uid]
    /\ likeCount q = (Z.of_nat (List.length (likes q)) + 1)%Z.
Proof.
  cbv zeta. rewrite Hnot. unfold PostsThunks.toggleLike_get in Hget.
  pose proof (find_post_id _ _ _ Hget) as Hid.
  set (q1 := PostsThunks.with_likes p (PostsThunks.arrayUnion (likes p) uid)
                                    (likeCount p + 1)).
  assert (Hq1 : PostsThunks.find_post postId (PostsThunks.replace_post q1 (PostsThunks.rposts r))
                = Some q1) by (apply (find_post_replace _ _ p); [exact Hget | exact Hid]).
  set (q2 := PostsThunks.with_likes q1 (PostsThunks.arrayUnion (likes q1) uid)
                                    (likeCount q1 + 1)).
  assert (Hl1 : likes q1 = likes p ++ [uid]).
  { change (likes q1) with (PostsThunks.arrayUnion (likes p) uid).
    unfold PostsThunks.arrayUnion. rewrite Hnot. reflexivity. }
  assert (Hl2 : likes q2 = likes p ++ [uid]).
  { change (likes q2) with (PostsThunks.arrayUnion (likes q1) uid).
    unfold PostsThunks.arrayUnion. rewrite Hl1, includes_app_last. reflexivity. }
  exists (PostsThunks.mkRemote (PostsThunks.replace_post q1 (PostsThunks.rposts r))
                               (PostsThunks.rnotifications r)).
  exists (PostsThunks.mkRemote
            (PostsThunks.replace_post q2 (PostsThunks.replace_post q1 (PostsThunks.rposts r)))
            (PostsThunks.rnotifications r)).
  exists q2.
  unfold PostsThunks.toggleLike_update, PostsThunks.toggleLike_get. simpl.
  rewrite Hget, Hq1. split; [reflexivity | split; [reflexivity | split; [| split]]].
  - apply (find_post_replace _ _ q1); [exact Hq1 | exact Hid].
  - exact Hl2.
  - change (PostsThunks.arrayUnion (PostsThunks.arrayUnion (likes p) uid) uid)
      with (likes q2).
    rewrite Hl2, Hc, length_app. simpl. lia.
Qed.

Lemma PostsThunks_interleaved_toggleLike_overcounts_witness :
  exists r1 r2 q,
    PostsThunks.toggleLike_update "post1" "u" false (PostsThunks.mkRemote [Samples.post1] 0)
      = Some r1
    /\ PostsThunks.toggleLike_update "post1" "u" false r1 = Some r2
    /\ PostsThunks.toggleLike_get "post1" r2 = Some q
    /\ likes q = ["u"%string]
    /\ likeCount q = 2%Z.
Proof.
  destruct (PostsThunks_interleaved_toggleLike_overcounts "post1" "u"
              (PostsThunks.mkRemote [Samples.post1] 0) Samples.post1
              eq_refl eq_refl eq_refl) as [r1 [r2 [q [H1 [H2 [H3 [H4 H5]]]]]]].
  exists r1, r2, q. rewrite H5, H4. repeat split; assumption.
Defined.

(** ** PostCard *)

(** [handleLikeToggle] updates the displayed like state inside the
    transaction callback, so each attempt Firestore makes applies it
    again: when [n >= 1] attempts all read a likes array without the
    user, a committed toggle shows the post liked with the count raised
    by [n], and when they all read the user in it, lowered by [n]. *)
Theorem PostCard_retries_repeat_update (uid : string) (ls : list string) (n : nat)
  (c : PostCard.Card) (Hn : (1 <= n)%nat) :
  let c' := PostCard.handleLikeToggle uid (repeat (Some ls) n) true c in
  PostCard.alerts c' = PostCard.alerts c
  /\ PostCard.isLiked c' = negb (includes ls uid)
  /\ PostCard.likeCount c'
     = (if includes ls uid then PostCard.likeCount c - Z.of_nat n
        else PostCard.likeCount c + Z.of_nat n)%Z.
Proof.
  assert (Hrun : forall m d,
    PostCard.run_attempts uid (repeat (Some ls) (S m)) d
    = (PostCard.mkCard (negb (includes ls uid))
         (if includes ls uid then PostCard.likeCount d - Z.of_nat (S m)
          else PostCard.likeCount d + Z.of_nat (S m))%Z (PostCard.alerts d), false)).
  { induction m as [| m IH]; intros d.
    - simpl. unfold PostCard.callback.
      destruct (includes ls uid); simpl; f_equal; f_equal; lia.
    - change (repeat (Some ls) (S (S m))) with (Some ls :: repeat (Some ls) (S m)).
      change (PostCard.run_attempts uid (Some ls :: repeat (Some ls) (S m)) d)
        with (match PostCard.callback uid (Some ls) d with
              | None => (d, true)
              | Some c' => PostCard.run_attempts uid (repeat (Some ls) (S m)) c'
              end).
      unfold PostCard.callback. destruct (includes ls uid); cbv beta iota;
        rewrite IH; simpl; f_equal; f_equal; lia. }
  destruct n as [| m]; [lia |].
  cbv zeta. unfold PostCard.handleLikeToggle. rewrite (Hrun m c). simpl.
  repeat split.
Qed.

Lemma PostCard_retries_repeat_update_witness :
  PostCard.likeCount
    (PostCard.handleLikeToggle "u" (repeat (Some []) 3) true (PostCard.mkCard false 5 0))
  = 8%Z.
Proof.
  destruct (PostCard_retries_repeat_update "u" [] 3 (PostCard.mkCard false 5 0))
    as [_ [_ H]]; [lia |].
  rewrite H. reflexivity.
Defined.
